(** * FlatTransferFunctionOnTheta

    A shallow embedding of [modules/FlatTransferFunctionOnTheta.cc]: the
    module reads one phase-space point and one reconstructed four-momentum
    from the pool, writes a four-momentum with a new polar angle and the
    constant weight [M_PI] back to the pool, and reports one integration
    dimension.

    The arithmetic of C++ [double] is kept abstract (class [Arithmetic]):
    the theorems of the first two parts hold for any interpretation of the
    operations.  The last part interprets them as IEEE binary64 numbers,
    with the C library's [sin], [cos] and [atan2] as parameters, and runs
    the module on sample pools with the values the GNU C library returns. *)

From Stdlib Require Import Floats ZArith Lia String Bool NArith List.

Set Implicit Arguments.

(** ** Scalars *)

(** What the module needs of [double] and of [<cmath>]: the constant
    [M_PI], the literal [0.0], [+], [*], [==] and the four library
    functions.  Multiplication is left-associative in the source, and the
    embedding keeps every product parenthesised the way the compiler reads
    it. *)
Class Arithmetic : Type := {
  double : Type;
  M_PI : double;
  zero : double;
  add : double -> double -> double;
  mul : double -> double -> double;
  eqb : double -> double -> bool;
  std_sqrt : double -> double;
  std_sin : double -> double;
  std_cos : double -> double;
  std_atan2 : double -> double -> double
}.

(** ** Four-momenta *)

Section LorentzVectors.
Context {A : Arithmetic}.

(** Modelled from the spec: the [LorentzVector] type is declared in
    momemta/Types.h, not under src/.  It is the Cartesian four-vector of
    section 3, (momentum-x, momentum-y, momentum-z, energy), with the
    equivalent spherical reading (|momentum|, polar angle, azimuthal
    angle). *)
Record LorentzVector : Type := {
  fX : double;
  fY : double;
  fZ : double;
  fT : double
}.

(** The accessors below are those of the vector library the type comes
    from, read on Cartesian components.  [SetCoordinates(a, b, c, d)]
    overwrites the four components. *)
Definition SetCoordinates (v : LorentzVector) (a b c d : double) : LorentzVector :=
  {| fX := a; fY := b; fZ := c; fT := d |}.

Definition E (v : LorentzVector) : double := fT v.

Definition P2 (v : LorentzVector) : double :=
  add (add (mul (fX v) (fX v)) (mul (fY v) (fY v))) (mul (fZ v) (fZ v)).

(** Momentum magnitude. *)
Definition P (v : LorentzVector) : double := std_sqrt (P2 v).

Definition Perp2 (v : LorentzVector) : double :=
  add (mul (fX v) (fX v)) (mul (fY v) (fY v)).

Definition Pt (v : LorentzVector) : double := std_sqrt (Perp2 v).

(** Azimuthal angle; a vector on the z axis reads 0. *)
Definition Phi (v : LorentzVector) : double :=
  if eqb (fX v) zero && eqb (fY v) zero then zero
  else std_atan2 (fY v) (fX v).

(** Polar angle; the null momentum reads 0. *)
Definition Theta (v : LorentzVector) : double :=
  if eqb (fX v) zero && eqb (fY v) zero && eqb (fZ v) zero then zero
  else std_atan2 (Pt v) (fZ v).

(** The contract of section 4.1 in the spec's words: the Cartesian
    four-vector with momentum magnitude [r], polar angle [theta], azimuthal
    angle [phi] and energy [e]. *)
Definition spherical (r theta phi e : double) : LorentzVector :=
  {| fX := mul (mul r (std_sin theta)) (std_cos phi);
     fY := mul (mul r (std_sin theta)) (std_sin phi);
     fZ := mul r (std_cos theta);
     fT := e |}.

End LorentzVectors.

Arguments LorentzVector A : clear implicits.

(** ** The pool *)

(** An [InputTag] names a slot of the pool: the producing module and the
    name of its output. *)
Record InputTag : Type := {
  module : string;
  parameter : string
}.

Definition InputTag_eq_dec (a b : InputTag) : {a = b} + {a <> b}.
Proof.
  decide equality; apply string_dec.
Defined.

(** Modelled from the spec: the status code that the execution entry point
    returns (section 6) is declared in momemta/Module.h, not under src/.
    [OK] is the success status. *)
Inductive Status : Type :=
| OK
| NEXT
| ABORT.

Section Modules.
Context {A : Arithmetic}.

(** Modelled from the spec: the pool (momemta/Pool.h) is not under src/.
    It owns the storage of every named slot (section 6); a slot holds a
    scalar or a four-momentum. *)
Record Pool : Type := {
  doubles : InputTag -> double;
  vectors : InputTag -> LorentzVector A
}.

Definition put_double (pool : Pool) (tag : InputTag) (x : double) : Pool :=
  {| doubles := fun t => if InputTag_eq_dec t tag then x else doubles pool t;
     vectors := vectors pool |}.

Definition put_vector (pool : Pool) (tag : InputTag) (v : LorentzVector A) : Pool :=
  {| doubles := doubles pool;
     vectors := fun t => if InputTag_eq_dec t tag then v else vectors pool t |}.

(** An instance of the module: its name and the two resolved input tags.
    The source keeps nothing else (the two output pointers are determined
    by the name). *)
Record FlatTransferFunctionOnTheta : Type := {
  m_name : string;
  m_ps_point : InputTag;
  m_input : InputTag
}.

(** Modelled from the spec: [produce<T>(name)] belongs to the base class
    (momemta/Module.h, not under src/).  It registers the named output slot
    [name] of this module in the pool (section 6): the slot
    (module name, [name]). *)
Definition produce (m : FlatTransferFunctionOnTheta) (name : string) : InputTag :=
  {| module := m_name m; parameter := name |}.

Definition output (m : FlatTransferFunctionOnTheta) : InputTag :=
  produce m "output".

Definition TF_times_jacobian (m : FlatTransferFunctionOnTheta) : InputTag :=
  produce m "TF_times_jacobian".

(** [work()], lines 67-85.  The four arguments of [SetCoordinates] are
    evaluated from the pool as it stands on entry, then the output slot is
    overwritten, then the weight slot. *)
Definition work (m : FlatTransferFunctionOnTheta) (pool : Pool) : Status * Pool :=
  let ps_point := doubles pool (m_ps_point m) in
  let reco_particle := vectors pool (m_input m) in
  let new_theta := mul M_PI ps_point in
  let pool1 :=
    put_vector pool (output m)
      (SetCoordinates (vectors pool (output m))
         (mul (mul (P reco_particle) (std_sin new_theta)) (std_cos (Phi reco_particle)))
         (mul (mul (P reco_particle) (std_sin new_theta)) (std_sin (Phi reco_particle)))
         (mul (P reco_particle) (std_cos new_theta))
         (E reco_particle)) in
  let pool2 := put_double pool1 (TF_times_jacobian m) M_PI in
  (OK, pool2).

(** [dimensions()], lines 87-89. *)
Definition dimensions (m : FlatTransferFunctionOnTheta) : N := 1%N.

End Modules.

Arguments Pool A : clear implicits.

(** ** Symbolic arithmetic *)

(** [double] read as the expression that computes it: running [work] in
    this arithmetic shows the formula it evaluates, operation by
    operation. *)
Module Symbolic.

Inductive term : Type :=
| Pi
| Zero
| Var (x : string)
| Add (a b : term)
| Mul (a b : term)
| Sqrt (a : term)
| Sin (a : term)
| Cos (a : term)
| Atan2 (a b : term).

Fixpoint term_eqb (a b : term) : bool :=
  match a, b with
  | Pi, Pi | Zero, Zero => true
  | Var x, Var y => String.eqb x y
  | Add a1 a2, Add b1 b2 | Mul a1 a2, Mul b1 b2 | Atan2 a1 a2, Atan2 b1 b2 =>
      term_eqb a1 b1 && term_eqb a2 b2
  | Sqrt a1, Sqrt b1 | Sin a1, Sin b1 | Cos a1, Cos b1 => term_eqb a1 b1
  | _, _ => false
  end.

Definition SymbolicArithmetic : Arithmetic :=
  {| double := term;
     M_PI := Pi;
     zero := Zero;
     add := Add;
     mul := Mul;
     eqb := term_eqb;
     std_sqrt := Sqrt;
     std_sin := Sin;
     std_cos := Cos;
     std_atan2 := Atan2 |}.

(** A pool of variables: u at every scalar slot, (px, py, pz, e) at every
    four-momentum slot. *)
Definition pool : Pool SymbolicArithmetic :=
  @Build_Pool SymbolicArithmetic
    (fun _ => Var "u")
    (fun _ => @Build_LorentzVector SymbolicArithmetic (Var "px") (Var "py") (Var "pz") (Var "e")).

End Symbolic.

(** ** Binary64 arithmetic *)

(** The functions of [<cmath>] that the module and the accessors call.
    Their code belongs to the C library, so they are parameters. *)
Record CMath : Type := {
  c_sin : float -> float;
  c_cos : float -> float;
  c_atan2 : float -> float -> float
}.

(** The macro [M_PI] of math.h, 3.14159265358979323846, as the compiler
    rounds it to a [double]. *)
Definition M_PI_double : float := 0x1.921fb54442d18p+1%float.

(** [double] as an IEEE binary64 number: [+], [*], [==] and [sqrt] are the
    primitive operations, each rounded to nearest. *)
Definition Binary64 (libm : CMath) : Arithmetic :=
  {| double := float;
     M_PI := M_PI_double;
     zero := 0%float;
     add := PrimFloat.add;
     mul := PrimFloat.mul;
     eqb := PrimFloat.eqb;
     std_sqrt := PrimFloat.sqrt;
     std_sin := c_sin libm;
     std_cos := c_cos libm;
     std_atan2 := c_atan2 libm |}.

(** A function given by a table of values, NaN where the table has no
    entry.  Arguments are compared bit for bit. *)
Fixpoint tabulated (table : list (float * float)) (x : float) : float :=
  match table with
  | nil => nan
  | (a, v) :: rest => if Leibniz.eqb x a then v else tabulated rest x
  end.

Fixpoint tabulated2 (table : list (float * float * float)) (y x : float) : float :=
  match table with
  | nil => nan
  | (b, a, v) :: rest =>
      if Leibniz.eqb y b && Leibniz.eqb x a then v else tabulated2 rest y x
  end.

(** The values that the GNU C library (glibc 2, x86-64) returns at the
    arguments the sample runs below evaluate: 0, [M_PI]/8, [M_PI]/4, [M_PI]
    and the azimuthal angle of (3, 4) for the sine and the cosine, and the
    pairs listed for [atan2].  The general statements do not use these
    tables; they take the library as a parameter. *)
Definition glibc_sin_values : list (float * float) :=
  ((0, 0) ::
   (0x1.921fb54442d18p-2, 0x1.87de2a6aea963p-2) ::
   (0x1.921fb54442d18p-1, 0x1.6a09e667f3bccp-1) ::
   (0x1.921fb54442d18p+1, 0x1.1a62633145c07p-53) ::
   (0x1.dac670561bb4fp-1, 0x1.9999999999999p-1) :: nil)%float.

Definition glibc_cos_values : list (float * float) :=
  ((0, 1) ::
   (0x1.921fb54442d18p-2, 0x1.d906bcf328d46p-1) ::
   (0x1.921fb54442d18p-1, 0x1.6a09e667f3bcdp-1) ::
   (0x1.921fb54442d18p+1, -1) ::
   (0x1.dac670561bb4fp-1, 0x1.3333333333334p-1) :: nil)%float.

(** [atan2(y, x)], listed as (y, x, value). *)
Definition glibc_atan2_values : list (float * float * float) :=
  ((4, 3, 0x1.dac670561bb4fp-1) ::
   (0x1.fffffffffffffp+1, 0x1.8000000000001p+1, 0x1.dac670561bb4ep-1) ::
   (5, 0x1.4000000000001p+2, 0x1.921fb54442d17p-1) ::
   (0, 0x1.25e69fd02ff0ap+0, 0) ::
   (0, 1, 0) ::
   (0, -1, 0x1.921fb54442d18p+1) ::
   (0, 0x1p+600, 0) ::
   (nan, infinity, nan) :: nil)%float.

Definition glibc : CMath :=
  {| c_sin := tabulated glibc_sin_values;
     c_cos := tabulated glibc_cos_values;
     c_atan2 := tabulated2 glibc_atan2_values |}.

(** ** Sample data *)

Module Sample.

Definition cuba : InputTag := {| module := "cuba"; parameter := "ps_points" |}.
Definition input : InputTag := {| module := "input"; parameter := "particles" |}.

Definition tf : FlatTransferFunctionOnTheta :=
  {| m_name := "flatter"; m_ps_point := cuba; m_input := input |}.

Definition tf' : FlatTransferFunctionOnTheta :=
  {| m_name := "other"; m_ps_point := cuba; m_input := input |}.

(** A module configured to read its own output slot. *)
Definition loop : FlatTransferFunctionOnTheta :=
  {| m_name := "flatter";
     m_ps_point := cuba;
     m_input := {| module := "flatter"; parameter := "output" |} |}.

Definition vec (x y z t : float) : LorentzVector (Binary64 glibc) :=
  @Build_LorentzVector (Binary64 glibc) x y z t.

(** A pool holding [u] at the phase-space slot, [p] at the slot [slot]
    and [junk] everywhere else. *)
Definition pool_at (slot : InputTag) (u : float) (p : LorentzVector (Binary64 glibc))
  (junk : float) : Pool (Binary64 glibc) :=
  @Build_Pool (Binary64 glibc)
    (fun t => if InputTag_eq_dec t cuba then u else junk)
    (fun t => if InputTag_eq_dec t slot then p else vec junk junk junk junk).

Definition pool_of (u : float) (p : LorentzVector (Binary64 glibc)) (junk : float)
  : Pool (Binary64 glibc) :=
  pool_at input u p junk.

End Sample.

(** ** Construction *)

(** Modelled from the spec: the parameter resolution mechanism of section 6
    (momemta/ParameterSet.h, not under src/), as far as the constructor
    uses it: the name of the module and the input tag stored under a
    key. *)
Record ParameterSet : Type := {
  getModuleName : string;
  get_InputTag : string -> InputTag
}.

(** The constructor, lines 59-65.  The base class receives the module's
    name, and the two input tags are read under the keys "ps_point" and
    "reco_particle".  [resolve] binds a tag to the storage of its slot; in
    a pool where every slot has storage it leaves the tag as it is. *)
Definition new_FlatTransferFunctionOnTheta (parameters : ParameterSet)
  : FlatTransferFunctionOnTheta :=
  {| m_name := getModuleName parameters;
     m_ps_point := get_InputTag parameters "ps_point";
     m_input := get_InputTag parameters "reco_particle" |}.

(** * Part 1: properties that hold in every arithmetic *)

Section Generic.
Context {A : Arithmetic}.

Implicit Types (m : FlatTransferFunctionOnTheta) (pool : Pool A) (t : InputTag).

(** ** Reading a pool after a write *)

Lemma vectors_put_vector_same pool t v :
  vectors (put_vector pool t v) t = v.
Proof.
  simpl. destruct (InputTag_eq_dec t t) as [_ | n]; [reflexivity | now elim n].
Qed.

Lemma vectors_put_vector_other pool t t' v :
  t' <> t -> vectors (put_vector pool t v) t' = vectors pool t'.
Proof.
  intros Hne. simpl. destruct (InputTag_eq_dec t' t) as [e | _]; [now elim Hne | reflexivity].
Qed.

Lemma doubles_put_double_same pool t x :
  doubles (put_double pool t x) t = x.
Proof.
  simpl. destruct (InputTag_eq_dec t t) as [_ | n]; [reflexivity | now elim n].
Qed.

Lemma doubles_put_double_other pool t t' x :
  t' <> t -> doubles (put_double pool t x) t' = doubles pool t'.
Proof.
  intros Hne. simpl. destruct (InputTag_eq_dec t' t) as [e | _]; [now elim Hne | reflexivity].
Qed.

(** The two output slots of a module are different slots. *)
Lemma output_neq_TF_times_jacobian m : output m <> TF_times_jacobian m.
Proof.
  unfold output, TF_times_jacobian, produce. intros H.
  apply (f_equal parameter) in H. simpl in H. discriminate H.
Qed.

(** ** What [work] leaves in the pool *)

Lemma work_status m pool : fst (work m pool) = OK.
Proof. reflexivity. Qed.

Lemma work_vectors m pool t :
  vectors (snd (work m pool)) t =
  if InputTag_eq_dec t (output m)
  then spherical (P (vectors pool (m_input m)))
                 (mul M_PI (doubles pool (m_ps_point m)))
                 (Phi (vectors pool (m_input m)))
                 (E (vectors pool (m_input m)))
  else vectors pool t.
Proof. reflexivity. Qed.

Lemma work_doubles m pool t :
  doubles (snd (work m pool)) t =
  if InputTag_eq_dec t (TF_times_jacobian m) then M_PI else doubles pool t.
Proof. reflexivity. Qed.

Lemma work_output m pool :
  vectors (snd (work m pool)) (output m) =
  spherical (P (vectors pool (m_input m)))
            (mul M_PI (doubles pool (m_ps_point m)))
            (Phi (vectors pool (m_input m)))
            (E (vectors pool (m_input m))).
Proof.
  unfold work. cbv zeta. unfold snd, put_double. cbn [vectors].
  apply vectors_put_vector_same.
Qed.

Lemma work_weight m pool :
  doubles (snd (work m pool)) (TF_times_jacobian m) = M_PI.
Proof.
  unfold work. cbv zeta. unfold snd. apply doubles_put_double_same.
Qed.

Lemma work_vectors_frame m pool t :
  t <> output m -> vectors (snd (work m pool)) t = vectors pool t.
Proof.
  intros Hne. unfold work. cbv zeta. unfold snd, put_double. cbn [vectors].
  now apply vectors_put_vector_other.
Qed.

Lemma work_doubles_frame m pool t :
  t <> TF_times_jacobian m -> doubles (snd (work m pool)) t = doubles pool t.
Proof.
  intros Hne. unfold work. cbv zeta. unfold snd.
  rewrite doubles_put_double_other by assumption. reflexivity.
Qed.

(** ** Specification of [work] and [dimensions] *)

(** C1: the four-momentum that [work] leaves in the output slot has the
    components x = |p|.sin(pi.u).cos(phi(p)), y = |p|.sin(pi.u).sin(phi(p)),
    z = |p|.cos(pi.u) and the energy of the input, where u is the sampled
    scalar and p the input four-momentum found in the pool; this holds for
    every u, so for every u in [0,1]. *)
Theorem work_output_components m pool :
  let u := doubles pool (m_ps_point m) in
  let p := vectors pool (m_input m) in
  let out := vectors (snd (work m pool)) (output m) in
  fX out = mul (mul (P p) (std_sin (mul M_PI u))) (std_cos (Phi p)) /\
  fY out = mul (mul (P p) (std_sin (mul M_PI u))) (std_sin (Phi p)) /\
  fZ out = mul (P p) (std_cos (mul M_PI u)) /\
  E out = E p.
Proof.
  intros u p out. subst out. rewrite work_output. fold u p.
  unfold spherical, E. cbn [fX fY fZ fT]. repeat split.
Qed.


(** C3: whatever the sampled scalar and the input four-momentum, the
    scalar that [work] leaves in the TF_times_jacobian slot is [M_PI]. *)
Theorem work_weight_is_pi m pool :
  doubles (snd (work m pool)) (TF_times_jacobian m) = M_PI.
Proof.
  apply work_weight.
Qed.

(** C4: [dimensions] returns 1 for every instance of the module.  It takes
    no pool, so the value depends on no input and on nothing an earlier
    invocation wrote. *)
Theorem dimensions_is_one m : dimensions m = 1%N.
Proof.
  reflexivity.
Qed.

(** C5: [work] returns the status OK for every module instance and every
    content of the pool. *)
Theorem work_returns_OK m pool :
  fst (work m pool) = OK /\ fst (work m pool) <> NEXT /\ fst (work m pool) <> ABORT.
Proof.
  rewrite work_status. repeat split; discriminate.
Qed.

(** C7: two invocations that read the same sampled scalar and the same
    input four-momentum (from any two pools, through any two instances)
    leave equal four-momenta and equal weights in their output slots and
    return the same status. *)
Theorem work_deterministic m1 m2 pool1 pool2 :
  doubles pool1 (m_ps_point m1) = doubles pool2 (m_ps_point m2) ->
  vectors pool1 (m_input m1) = vectors pool2 (m_input m2) ->
  vectors (snd (work m1 pool1)) (output m1) = vectors (snd (work m2 pool2)) (output m2) /\
  doubles (snd (work m1 pool1)) (TF_times_jacobian m1) =
    doubles (snd (work m2 pool2)) (TF_times_jacobian m2) /\
  fst (work m1 pool1) = fst (work m2 pool2).
Proof.
  intros Hu Hp. rewrite !work_output, !work_weight, !work_status, Hu, Hp.
  repeat split.
Qed.

(** C8, as the code has it (amended claim).  [work] writes the output slot
    and the TF_times_jacobian slot and nothing else: every other
    four-momentum and every other scalar of the pool is unchanged.  The
    input four-momentum and the sampled scalar are unchanged when they are
    not the module's own output slots, and a second invocation then finds
    the same inputs and leaves the same pool: nothing is carried from one
    invocation to the next. *)
Theorem work_frame m pool :
  (forall t, t <> output m -> vectors (snd (work m pool)) t = vectors pool t) /\
  (forall t, t <> TF_times_jacobian m -> doubles (snd (work m pool)) t = doubles pool t) /\
  (m_input m <> output m ->
   vectors (snd (work m pool)) (m_input m) = vectors pool (m_input m)) /\
  (m_ps_point m <> TF_times_jacobian m ->
   doubles (snd (work m pool)) (m_ps_point m) = doubles pool (m_ps_point m)) /\
  (m_input m <> output m -> m_ps_point m <> TF_times_jacobian m ->
   forall t,
     vectors (snd (work m (snd (work m pool)))) t = vectors (snd (work m pool)) t /\
     doubles (snd (work m (snd (work m pool)))) t = doubles (snd (work m pool)) t).
Proof.
  split; [| split; [| split; [| split]]].
  - intros t Ht. now apply work_vectors_frame.
  - intros t Ht. now apply work_doubles_frame.
  - intros Hin. now apply work_vectors_frame.
  - intros Hin. now apply work_doubles_frame.
  - intros Hv Hd t. split.
    + rewrite (work_vectors m (snd (work m pool)) t), (work_vectors m pool t).
      destruct (InputTag_eq_dec t (output m)) as [_ | _]; [| reflexivity].
      rewrite work_vectors_frame, work_doubles_frame by assumption. reflexivity.
    + rewrite (work_doubles m (snd (work m pool)) t), (work_doubles m pool t).
      destruct (InputTag_eq_dec t (TF_times_jacobian m)); reflexivity.
Qed.

(** C9: [work] is total and unguarded.  For every sampled scalar u, in
    [0,1] or not, and every input four-momentum p it returns OK together
    with a pool whose output slot holds the reconstruction from |p|, the
    polar angle M_PI.u and phi(p), with the energy of p, and whose
    TF_times_jacobian slot holds M_PI. *)
Theorem work_total m pool :
  exists pool',
    work m pool = (OK, pool') /\
    vectors pool' (output m) =
      spherical (P (vectors pool (m_input m)))
                (mul M_PI (doubles pool (m_ps_point m)))
                (Phi (vectors pool (m_input m)))
                (E (vectors pool (m_input m))) /\
    doubles pool' (TF_times_jacobian m) = M_PI.
Proof.
  exists (snd (work m pool)). split; [| split].
  - reflexivity.
  - apply work_output.
  - apply work_weight.
Qed.

(** C10: the outputs depend on the input four-momentum only through its
    energy, momentum magnitude and azimuthal angle.  Two invocations with
    the same sampled scalar whose input four-momenta agree on these three
    leave equal output four-momenta and equal weights, whatever the polar
    angles of the inputs. *)
Theorem work_ignores_input_theta m pool1 pool2 :
  doubles pool1 (m_ps_point m) = doubles pool2 (m_ps_point m) ->
  E (vectors pool1 (m_input m)) = E (vectors pool2 (m_input m)) ->
  P (vectors pool1 (m_input m)) = P (vectors pool2 (m_input m)) ->
  Phi (vectors pool1 (m_input m)) = Phi (vectors pool2 (m_input m)) ->
  vectors (snd (work m pool1)) (output m) = vectors (snd (work m pool2)) (output m) /\
  doubles (snd (work m pool1)) (TF_times_jacobian m) =
    doubles (snd (work m pool2)) (TF_times_jacobian m).
Proof.
  intros Hu HE HP HPhi. rewrite !work_output, !work_weight, Hu, HE, HP, HPhi.
  split; reflexivity.
Qed.

End Generic.

(** ** The formula, evaluated *)

(** [work] run on a pool of variables: the status, the expression stored
    in the output slot, the weight, and the untouched input. *)
Example work_symbolic :
  let modulus :=
    Symbolic.Sqrt
      (Symbolic.Add
         (Symbolic.Add (Symbolic.Mul (Symbolic.Var "px") (Symbolic.Var "px"))
                       (Symbolic.Mul (Symbolic.Var "py") (Symbolic.Var "py")))
         (Symbolic.Mul (Symbolic.Var "pz") (Symbolic.Var "pz"))) in
  let theta := Symbolic.Mul Symbolic.Pi (Symbolic.Var "u") in
  let phi := Symbolic.Atan2 (Symbolic.Var "py") (Symbolic.Var "px") in
  fst (work Sample.tf Symbolic.pool) = OK /\
  vectors (snd (work Sample.tf Symbolic.pool)) (output Sample.tf) =
    @Build_LorentzVector Symbolic.SymbolicArithmetic
      (Symbolic.Mul (Symbolic.Mul modulus (Symbolic.Sin theta)) (Symbolic.Cos phi))
      (Symbolic.Mul (Symbolic.Mul modulus (Symbolic.Sin theta)) (Symbolic.Sin phi))
      (Symbolic.Mul modulus (Symbolic.Cos theta))
      (Symbolic.Var "e") /\
  doubles (snd (work Sample.tf Symbolic.pool)) (TF_times_jacobian Sample.tf) = Symbolic.Pi /\
  vectors (snd (work Sample.tf Symbolic.pool)) Sample.input = vectors Symbolic.pool Sample.input.
Proof.
  cbv zeta. repeat (split; [reflexivity |]). reflexivity.
Qed.

(** * Part 2: construction and composition

    Properties of the module as the host uses it: built from a parameter
    set and run beside other modules. *)

(** ** Modules and their slots, in every arithmetic *)

Section Composition.
Context {A : Arithmetic}.

Implicit Types (m : FlatTransferFunctionOnTheta) (pool : Pool A) (t : InputTag).

Lemma produce_module m name : module (produce m name) = m_name m.
Proof. reflexivity. Qed.

Lemma produce_neq m1 m2 name1 name2 :
  m_name m1 <> m_name m2 -> produce m1 name1 <> produce m2 name2.
Proof.
  intros Hne H. apply Hne. now apply (f_equal module) in H.
Qed.

Lemma foreign_slot_neq m t name : module t <> m_name m -> t <> produce m name.
Proof.
  intros Hne H. apply Hne. now rewrite H.
Qed.

(** X1: a module built by the constructor reads the sampled scalar from
    the tag configured under "ps_point" and the four-momentum from the tag
    configured under "reco_particle"; [work] leaves the reconstruction in
    the slot (module name, "output") and [M_PI] in the slot
    (module name, "TF_times_jacobian"), and changes no slot that belongs to
    a module of another name. *)
Theorem constructed_module_contract (parameters : ParameterSet) pool :
  let m := new_FlatTransferFunctionOnTheta parameters in
  let name := getModuleName parameters in
  let u := doubles pool (get_InputTag parameters "ps_point") in
  let p := vectors pool (get_InputTag parameters "reco_particle") in
  let pool' := snd (work m pool) in
  vectors pool' {| module := name; parameter := "output" |} =
    spherical (P p) (mul M_PI u) (Phi p) (E p) /\
  doubles pool' {| module := name; parameter := "TF_times_jacobian" |} = M_PI /\
  (forall t, module t <> name ->
     vectors pool' t = vectors pool t /\ doubles pool' t = doubles pool t).
Proof.
  intros m name u p pool'. subst pool'. split; [| split].
  - exact (work_output m pool).
  - exact (work_weight m pool).
  - intros t Ht. split.
    + apply work_vectors_frame. now apply foreign_slot_neq.
    + apply work_doubles_frame. now apply foreign_slot_neq.
Qed.

(** X2: two modules of different names, neither of which reads an output
    slot of the other, commute: run in either order they leave the same
    pool. *)
Theorem work_commutes m1 m2 pool :
  m_name m1 <> m_name m2 ->
  m_input m1 <> output m2 -> m_ps_point m1 <> TF_times_jacobian m2 ->
  m_input m2 <> output m1 -> m_ps_point m2 <> TF_times_jacobian m1 ->
  forall t,
    vectors (snd (work m1 (snd (work m2 pool)))) t =
      vectors (snd (work m2 (snd (work m1 pool)))) t /\
    doubles (snd (work m1 (snd (work m2 pool)))) t =
      doubles (snd (work m2 (snd (work m1 pool)))) t.
Proof.
  intros Hname Hv1 Hd1 Hv2 Hd2 t.
  assert (output m1 <> output m2) as Hout by now apply produce_neq.
  assert (TF_times_jacobian m1 <> TF_times_jacobian m2) as Htf by now apply produce_neq.
  split.
  - rewrite (work_vectors m1 (snd (work m2 pool)) t), (work_vectors m2 (snd (work m1 pool)) t).
    rewrite (@work_vectors_frame _ m2 pool _ Hv1), (@work_doubles_frame _ m2 pool _ Hd1).
    rewrite (@work_vectors_frame _ m1 pool _ Hv2), (@work_doubles_frame _ m1 pool _ Hd2).
    rewrite (work_vectors m1 pool t), (work_vectors m2 pool t).
    destruct (InputTag_eq_dec t (output m1)) as [e1 | n1];
      destruct (InputTag_eq_dec t (output m2)) as [e2 | n2]; try reflexivity.
    elim Hout. now rewrite <- e1.
  - rewrite (work_doubles m1 (snd (work m2 pool)) t), (work_doubles m2 (snd (work m1 pool)) t).
    rewrite (work_doubles m1 pool t), (work_doubles m2 pool t).
    destruct (InputTag_eq_dec t (TF_times_jacobian m1));
      destruct (InputTag_eq_dec t (TF_times_jacobian m2)); reflexivity.
Qed.

End Composition.


(** * Part 3: binary64 arithmetic

    From here on [double] is an IEEE binary64 number.  The general
    statements take the C library as a parameter and name the values they
    need of it; the sample runs use the values of the GNU C library. *)

Local Open Scope float_scope.

(** ** Products with one, minus one and zero *)

Lemma digits2_pos_shift52 (m : positive) :
  Z.pos (digits2_pos (4503599627370496 * m)) = (Z.pos (digits2_pos m) + 52)%Z.
Proof.
  cbn [Pos.mul digits2_pos]. rewrite !Pos2Z.inj_succ. lia.
Qed.

Lemma iter_shr_shift52 (m : positive) :
  SpecFloat.iter_pos shr_1 52
    {| shr_m := Z.pos (4503599627370496 * m); shr_r := false; shr_s := false |} =
  {| shr_m := Z.pos m; shr_r := false; shr_s := false |}.
Proof.
  reflexivity.
Qed.

Lemma SFmul_unit (s sy : bool) (m : positive) (e : Z) :
  SpecFloat.valid_binary prec emax (S754_finite s m e) = true ->
  SFmul prec emax (S754_finite s m e) (S754_finite sy 4503599627370496 (-52)) =
  S754_finite (xorb s sy) m e.
Proof.
  intros Hv. cbn [SpecFloat.valid_binary] in Hv. unfold bounded in Hv.
  apply andb_prop in Hv. destruct Hv as [Hc He].
  unfold canonical_mantissa in Hc. apply Z.eqb_eq in Hc. apply Z.leb_le in He.
  change (fexp prec emax (Z.pos (digits2_pos m) + e)%Z = e) in Hc.
  cbn [SFmul]. rewrite Pos.mul_comm.
  unfold binary_round_aux, shr_fexp.
  cbn [Zdigits2]. rewrite digits2_pos_shift52.
  replace (Z.pos (digits2_pos m) + 52 + (e + -52))%Z with (Z.pos (digits2_pos m) + e)%Z by lia.
  rewrite Hc.
  replace (e - (e + -52))%Z with 52%Z by lia.
  cbn [shr shr_record_of_loc]. rewrite iter_shr_shift52.
  cbn [shr_m loc_of_shr_record round_nearest_even shr_r shr_s Zdigits2].
  replace (e + -52 + 52)%Z with e by lia.
  rewrite Hc, Z.sub_diag. cbn [shr shr_m].
  apply Z.leb_le in He. rewrite He. reflexivity.
Qed.

Lemma mul_one_r (x : float) : x * 1 = x.
Proof.
  apply Prim2SF_inj. rewrite mul_spec.
  change (Prim2SF 1) with (S754_finite false 4503599627370496 (-52)).
  pose proof (Prim2SF_valid x) as Hv. unfold SF64mul.
  destruct (Prim2SF x) as [s | s | | s m e].
  - cbn. now rewrite xorb_false_r.
  - cbn. now rewrite xorb_false_r.
  - reflexivity.
  - rewrite (@SFmul_unit s false m e Hv). now rewrite xorb_false_r.
Qed.

Lemma mul_minus_one_r (x : float) : x * -1 = - x.
Proof.
  apply Prim2SF_inj. rewrite mul_spec, opp_spec.
  change (Prim2SF (-1)) with (S754_finite true 4503599627370496 (-52)).
  pose proof (Prim2SF_valid x) as Hv. unfold SF64mul.
  destruct (Prim2SF x) as [s | s | | s m e].
  - cbn. now rewrite xorb_true_r.
  - cbn. now rewrite xorb_true_r.
  - reflexivity.
  - rewrite (@SFmul_unit s true m e Hv). cbn. now rewrite xorb_true_r.
Qed.

Lemma is_zero_of_spec (x : float) (s : bool) :
  Prim2SF x = S754_zero s -> (x =? 0) = true.
Proof.
  intros H. rewrite FloatAxioms.eqb_spec, H. reflexivity.
Qed.

Lemma finite_cases (x : float) :
  is_finite x = true ->
  (exists s, Prim2SF x = S754_zero s) \/ (exists s m e, Prim2SF x = S754_finite s m e).
Proof.
  unfold is_finite, is_nan, is_infinity.
  rewrite !FloatAxioms.eqb_spec, abs_spec.
  destruct (Prim2SF x) as [s | s | | s m e].
  - intros _. left. now exists s.
  - destruct s; discriminate.
  - discriminate.
  - intros _. right. now exists s, m, e.
Qed.

Lemma mul_zero_r_finite (x : float) :
  is_finite x = true -> exists s, Prim2SF (x * 0) = S754_zero s.
Proof.
  intros Hx. rewrite mul_spec.
  change (Prim2SF 0) with (S754_zero false).
  destruct (@finite_cases x Hx) as [[s ->] | (s & m & e & ->)];
    eexists; reflexivity.
Qed.

Lemma mul_zero_l_finite (z y : float) (s : bool) :
  Prim2SF z = S754_zero s -> is_finite y = true ->
  exists s', Prim2SF (z * y) = S754_zero s'.
Proof.
  intros Hz Hy. rewrite mul_spec, Hz.
  destruct (@finite_cases y Hy) as [[sy ->] | (sy & m & e & ->)];
    eexists; reflexivity.
Qed.

Lemma mul_zero_finite_is_zero (x c : float) :
  is_finite x = true -> is_finite c = true -> (x * 0 * c =? 0) = true.
Proof.
  intros Hx Hc.
  destruct (@mul_zero_r_finite x Hx) as [s Hs].
  destruct (@mul_zero_l_finite (x * 0) c s Hs Hc) as [s' Hs'].
  exact (@is_zero_of_spec _ s' Hs').
Qed.

(** ** The ends of the range *)

Section Ends.

Variable libm : CMath.

(** What the statements need of the C library: the sine and cosine of 0
    (exact in every conforming library) and the cosine of [M_PI]. *)
Hypothesis sin_zero : c_sin libm 0 = 0.
Hypothesis cos_zero : c_cos libm 0 = 1.
Hypothesis cos_M_PI : c_cos libm M_PI_double = -1.

Implicit Types (m : FlatTransferFunctionOnTheta) (pool : Pool (Binary64 libm)).

Lemma work_output_binary64 m pool :
  let p := vectors pool (m_input m) in
  let theta := M_PI_double * doubles pool (m_ps_point m) in
  let out := vectors (snd (work m pool)) (output m) in
  fX out = P p * c_sin libm theta * c_cos libm (Phi p) /\
  fY out = P p * c_sin libm theta * c_sin libm (Phi p) /\
  fZ out = P p * c_cos libm theta.
Proof.
  intros p theta out. subst out. rewrite work_output. repeat split.
Qed.

Lemma output_at_zero m pool :
  let p := vectors pool (m_input m) in
  let out := vectors (snd (work m pool)) (output m) in
  doubles pool (m_ps_point m) = 0 ->
  is_finite (P p) = true ->
  is_finite (c_cos libm (Phi p)) = true ->
  is_finite (c_sin libm (Phi p)) = true ->
  (fX out =? 0) = true /\ (fY out =? 0) = true /\ fZ out = P p.
Proof.
  intros p out Hu HP Hcos Hsin.
  destruct (work_output_binary64 m pool) as (Hx & Hy & Hz).
  fold p out in Hx, Hy, Hz. rewrite Hu in Hx, Hy, Hz.
  change (M_PI_double * 0) with 0 in Hx, Hy, Hz.
  rewrite sin_zero in Hx, Hy. rewrite cos_zero in Hz.
  rewrite Hx, Hy, Hz. split; [| split].
  - now apply mul_zero_finite_is_zero.
  - now apply mul_zero_finite_is_zero.
  - apply mul_one_r.
Qed.

(** C6, as the code has it (amended claim).  With u = 0 and an input whose
    momentum magnitude and whose cosine and sine of the azimuthal angle are
    finite, x and y of the output are zero and z is |p|.  With u = 1, z of
    the output is -|p|, and x and y are |p|.sin(M_PI).cos(phi(p)) and
    |p|.sin(M_PI).sin(phi(p)), with the sine of the double [M_PI] as the
    C library returns it. *)
Theorem work_at_the_ends :
  (forall m pool,
     let p := vectors pool (m_input m) in
     let out := vectors (snd (work m pool)) (output m) in
     doubles pool (m_ps_point m) = 0 ->
     is_finite (P p) = true ->
     is_finite (c_cos libm (Phi p)) = true ->
     is_finite (c_sin libm (Phi p)) = true ->
     (fX out =? 0) = true /\ (fY out =? 0) = true /\ fZ out = P p) /\
  (forall m pool,
     let p := vectors pool (m_input m) in
     let out := vectors (snd (work m pool)) (output m) in
     doubles pool (m_ps_point m) = 1 ->
     fX out = P p * c_sin libm M_PI_double * c_cos libm (Phi p) /\
     fY out = P p * c_sin libm M_PI_double * c_sin libm (Phi p) /\
     fZ out = - P p).
Proof.
  split; intros m pool p out Hu.
  - intros HP Hcos Hsin. now apply output_at_zero.
  - destruct (work_output_binary64 m pool) as (Hx & Hy & Hz).
    fold p out in Hx, Hy, Hz. rewrite Hu in Hx, Hy, Hz.
    change (M_PI_double * 1) with M_PI_double in Hx, Hy, Hz.
    rewrite cos_M_PI in Hz.
    split; [exact Hx |]. split; [exact Hy |].
    rewrite Hz. apply mul_minus_one_r.
Qed.

(** X10: with u = 0 the azimuthal angle of the output reads 0, whatever
    the azimuthal angle of the input: the output lies on the z axis.  The
    input is one whose momentum magnitude and whose cosine and sine of the
    azimuthal angle are finite. *)
Theorem work_forgets_azimuth_at_u_0 m pool :
  let p := vectors pool (m_input m) in
  let out := vectors (snd (work m pool)) (output m) in
  doubles pool (m_ps_point m) = 0 ->
  is_finite (P p) = true ->
  is_finite (c_cos libm (Phi p)) = true ->
  is_finite (c_sin libm (Phi p)) = true ->
  Phi out = 0.
Proof.
  intros p out Hu HP Hcos Hsin.
  destruct (output_at_zero m pool Hu HP Hcos Hsin) as (Hx & Hy & _).
  fold out in Hx, Hy. unfold Phi. cbn [eqb zero Binary64].
  rewrite Hx, Hy. reflexivity.
Qed.

End Ends.

(** ** Sample runs with the values of the GNU C library *)

(** The amended C6 at p = (3, 4, 0, 5): the library has the three values,
    and the two runs give (0, 0, 5) and (x, y, -5). *)
Lemma work_at_the_ends_witness :
  let p := Sample.vec 3 4 0 5 in
  let out0 := vectors (snd (work Sample.tf (Sample.pool_of 0 p 0))) (output Sample.tf) in
  let out1 := vectors (snd (work Sample.tf (Sample.pool_of 1 p 0))) (output Sample.tf) in
  (c_sin glibc 0 = 0 /\ c_cos glibc 0 = 1 /\ c_cos glibc M_PI_double = -1) /\
  ((fX out0 =? 0) = true /\ (fY out0 =? 0) = true /\ fZ out0 = 5) /\
  (fX out1 = 5 * c_sin glibc M_PI_double * 0x1.3333333333334p-1 /\
   fY out1 = 5 * c_sin glibc M_PI_double * 0x1.9999999999999p-1 /\
   fZ out1 = -5).
Proof.
  cbv zeta.
  assert (c_sin glibc 0 = 0) as H1 by reflexivity.
  assert (c_cos glibc 0 = 1) as H2 by reflexivity.
  assert (c_cos glibc M_PI_double = -1) as H3 by reflexivity.
  split; [now repeat split |].
  destruct (@work_at_the_ends glibc H1 H2 H3) as [H0 Hpi]. split.
  - apply (H0 Sample.tf (Sample.pool_of 0 (Sample.vec 3 4 0 5) 0)); reflexivity.
  - apply (Hpi Sample.tf (Sample.pool_of 1 (Sample.vec 3 4 0 5) 0)); reflexivity.
Defined.

(** C6 as stated fails at u = 1: for p = (3, 4, 0, 5) the output is
    (3.67e-16, 4.90e-16, -5, 5), since the sine of the double [M_PI] is
    1.22e-16 and not 0.  At u = 0 it needs a momentum whose magnitude is
    finite: for p = (2^600, 0, 0, 2^600) the square overflows, |p| is
    infinite and the product infinity.0 makes x a NaN. *)
Lemma work_x_y_not_zero_at_u_1 :
  (let pool := Sample.pool_of 1 (Sample.vec 3 4 0 5) 0 in
   let out := vectors (snd (work Sample.tf pool)) (output Sample.tf) in
   doubles pool (m_ps_point Sample.tf) = 1 /\
   fX out = 0x1.a79394c9e8a0cp-52 /\ (fX out =? 0) = false /\
   fY out = 0x1.1a62633145c07p-51 /\ (fY out =? 0) = false /\
   fZ out = -5) /\
  (let pool := Sample.pool_of 0 (Sample.vec 0x1p+600 0 0 0x1p+600) 0 in
   let out := vectors (snd (work Sample.tf pool)) (output Sample.tf) in
   doubles pool (m_ps_point Sample.tf) = 0 /\
   P (vectors pool (m_input Sample.tf)) = infinity /\
   fX out = nan /\ (fX out =? 0) = false).
Proof.
  vm_compute. repeat split.
Qed.


(** C8 as stated fails for a module that reads its own output slot.  With
    u = 1/8 and (0, 0, 3, 3) in that slot, [work] overwrites its input
    with (1.1480502970952693, 0, 2.77163859753386, 3), and a second
    invocation reads that and leaves x = 1.148050297095269: the result of
    the first invocation is carried into the second. *)
Lemma work_overwrites_self_fed_input :
  let m := Sample.loop in
  let pool := Sample.pool_at (output m) 0.125 (Sample.vec 0 0 3 3) 0 in
  let pool1 := snd (work m pool) in
  let pool2 := snd (work m pool1) in
  m_input m = output m /\
  vectors pool (m_input m) = Sample.vec 0 0 3 3 /\
  vectors pool1 (m_input m) =
    Sample.vec 0x1.25e69fd02ff0ap+0 0 0x1.62c50db65e9f4p+1 3 /\
  vectors pool1 (m_input m) <> vectors pool (m_input m) /\
  vectors pool2 (output m) =
    Sample.vec 0x1.25e69fd02ff09p+0 0 0x1.62c50db65e9f4p+1 3 /\
  vectors pool2 (output m) <> vectors pool1 (output m).
Proof.
  vm_compute. repeat split; intros H; inversion H.
Qed.

(** The amended C8 at the module "flatter" reading the slots of two other
    modules: the inputs are still (3, 4, 5, 12) and 1/4 after the
    invocation, and a second invocation changes nothing. *)
Lemma work_frame_witness :
  let m := Sample.tf in
  let pool := Sample.pool_of 0.25 (Sample.vec 3 4 5 12) 0 in
  let pool1 := snd (work m pool) in
  let pool2 := snd (work m pool1) in
  (m_input m <> output m /\ m_ps_point m <> TF_times_jacobian m) /\
  vectors pool1 (m_input m) = Sample.vec 3 4 5 12 /\
  doubles pool1 (m_ps_point m) = 0.25 /\
  (forall t, vectors pool2 t = vectors pool1 t /\ doubles pool2 t = doubles pool1 t).
Proof.
  cbv zeta.
  assert (m_input Sample.tf <> output Sample.tf) as H1 by discriminate.
  assert (m_ps_point Sample.tf <> TF_times_jacobian Sample.tf) as H2 by discriminate.
  destruct (@work_frame (Binary64 glibc) Sample.tf
              (Sample.pool_of 0.25 (Sample.vec 3 4 5 12) 0))
    as (_ & _ & Hv & Hd & Hagain).
  split; [now split |]. split; [| split].
  - rewrite (Hv H1). reflexivity.
  - rewrite (Hd H2). reflexivity.
  - exact (Hagain H1 H2).
Defined.

(** C7 at two instances and two pools that differ outside the input
    slots: both read u = 1/4 and p = (3, 4, 5, 12). *)
Lemma work_deterministic_witness :
  let p := Sample.vec 3 4 5 12 in
  let pool1 := Sample.pool_of 0.25 p 0 in
  let pool2 := Sample.pool_of 0.25 p 7 in
  (doubles pool1 (m_ps_point Sample.tf) = doubles pool2 (m_ps_point Sample.tf') /\
   vectors pool1 (m_input Sample.tf) = vectors pool2 (m_input Sample.tf')) /\
  (vectors (snd (work Sample.tf pool1)) (output Sample.tf) =
     vectors (snd (work Sample.tf' pool2)) (output Sample.tf') /\
   doubles (snd (work Sample.tf pool1)) (TF_times_jacobian Sample.tf) =
     doubles (snd (work Sample.tf' pool2)) (TF_times_jacobian Sample.tf') /\
   fst (work Sample.tf pool1) = fst (work Sample.tf' pool2)).
Proof.
  cbv zeta. split.
  - split; reflexivity.
  - apply (@work_deterministic (Binary64 glibc) Sample.tf Sample.tf'
             (Sample.pool_of 0.25 (Sample.vec 3 4 5 12) 0)
             (Sample.pool_of 0.25 (Sample.vec 3 4 5 12) 7)); reflexivity.
Defined.

(** C10 at inputs of opposite direction along z, (0, 0, 1, 2) and
    (0, 0, -1, 2): same sampled scalar, same energy, magnitude and azimuthal
    angle, polar angles 0 and [M_PI]. *)
Lemma work_ignores_input_theta_witness :
  let m := Sample.tf in
  let pool1 := Sample.pool_of 0.25 (Sample.vec 0 0 1 2) 0 in
  let pool2 := Sample.pool_of 0.25 (Sample.vec 0 0 (-1) 2) 0 in
  let p1 := vectors pool1 (m_input m) in
  let p2 := vectors pool2 (m_input m) in
  (doubles pool1 (m_ps_point m) = doubles pool2 (m_ps_point m) /\
   E p1 = E p2 /\ P p1 = P p2 /\ Phi p1 = Phi p2 /\
   Theta p1 = 0 /\ Theta p2 = M_PI_double) /\
  (vectors (snd (work m pool1)) (output m) = vectors (snd (work m pool2)) (output m) /\
   doubles (snd (work m pool1)) (TF_times_jacobian m) =
     doubles (snd (work m pool2)) (TF_times_jacobian m)).
Proof.
  cbv zeta. split.
  - repeat split; reflexivity.
  - apply (@work_ignores_input_theta (Binary64 glibc) Sample.tf
             (Sample.pool_of 0.25 (Sample.vec 0 0 1 2) 0)
             (Sample.pool_of 0.25 (Sample.vec 0 0 (-1) 2) 0)); reflexivity.
Defined.

(** X2 at the modules "flatter" and "other", both fed by the same inputs. *)
Lemma work_commutes_witness :
  let m1 := Sample.tf in
  let m2 := Sample.tf' in
  let pool := Sample.pool_of 0.25 (Sample.vec 3 4 5 12) 0 in
  (m_name m1 <> m_name m2 /\
   m_input m1 <> output m2 /\ m_ps_point m1 <> TF_times_jacobian m2 /\
   m_input m2 <> output m1 /\ m_ps_point m2 <> TF_times_jacobian m1) /\
  (forall t,
    vectors (snd (work m1 (snd (work m2 pool)))) t =
      vectors (snd (work m2 (snd (work m1 pool)))) t /\
    doubles (snd (work m1 (snd (work m2 pool)))) t =
      doubles (snd (work m2 (snd (work m1 pool)))) t).
Proof.
  cbv zeta.
  assert (m_name Sample.tf <> m_name Sample.tf') as H1 by discriminate.
  assert (m_input Sample.tf <> output Sample.tf') as H2 by discriminate.
  assert (m_ps_point Sample.tf <> TF_times_jacobian Sample.tf') as H3 by discriminate.
  assert (m_input Sample.tf' <> output Sample.tf) as H4 by discriminate.
  assert (m_ps_point Sample.tf' <> TF_times_jacobian Sample.tf) as H5 by discriminate.
  split; [now repeat split |].
  exact (@work_commutes (Binary64 glibc) Sample.tf Sample.tf'
           (Sample.pool_of 0.25 (Sample.vec 3 4 5 12) 0) H1 H2 H3 H4 H5).
Defined.

(** X10 at p = (3, 4, 0, 5), whose azimuthal angle is 0.927. *)
Lemma work_forgets_azimuth_at_u_0_witness :
  let pool := Sample.pool_of 0 (Sample.vec 3 4 0 5) 0 in
  let p := vectors pool (m_input Sample.tf) in
  let out := vectors (snd (work Sample.tf pool)) (output Sample.tf) in
  (c_sin glibc 0 = 0 /\ c_cos glibc 0 = 1 /\
   doubles pool (m_ps_point Sample.tf) = 0 /\
   is_finite (P p) = true /\
   is_finite (c_cos glibc (Phi p)) = true /\
   is_finite (c_sin glibc (Phi p)) = true) /\
  Phi p = 0x1.dac670561bb4fp-1 /\
  Phi out = 0.
Proof.
  cbv zeta. split; [repeat split |]. split; [reflexivity |].
  apply (@work_forgets_azimuth_at_u_0 glibc eq_refl eq_refl Sample.tf
           (Sample.pool_of 0 (Sample.vec 3 4 0 5) 0)); reflexivity.
Defined.
